(** * loadData: the frequency-table loader and the fit-bundle loader

    A shallow embedding of [loadData.py] (functions [loadFreq] and
    [loadFit]) together with the properties of its specification.

    Conventions of the embedding.

    - A Python exception is a value of type [exn]; a computation that can
      raise returns a [result].
    - A binary64 cell of a numpy array is a [float]: a finite value is
      carried by the rational number it denotes, and the three special
      values are kept apart.  Comparison, equality and [np.rint] are exact
      operations on binary64, so on finite cells they agree with the
      corresponding operations on rationals.  The only inexact operation of
      the module is the regression [np.polyfit]; it is embedded in exact
      arithmetic, without the rounding and the rank cut-off of the library:
      the embedding fixes when the regression is run and on which rows, and
      no property below rests on the value it gives, the sample inputs
      apart.
    - [num_of_l - 0.5] is computed exactly (true of binary64 for
      |num_of_l| < 2^52) and [np.zeros] returns for every size that is not
      negative (true of the sizes that can be allocated).  A property that
      rests on either bounds [num_of_l] accordingly.
    - The text of the frequency file is taken after tokenisation: a file is
      the list of its lines, each line the list of the numeric fields left
      once comments are stripped.
    - An HDF5 container is the finite map from the full paths of its
      datasets to the values stored there; a path that a dataset path
      extends is a group.  A look-up sees a group as an absent key, where
      h5py raises a type error: a property that rests on the outcome of
      such a look-up is stated for the containers that are well formed,
      where a path that [loadFit] reads is a dataset or is absent.
      [loadFit] runs in a world made
      of the file system, the handles that are open and a log of the
      openings, look-ups and closings, so that what the [with] block does
      with the handle can be stated. *)

From Stdlib Require Import QArith Qround Lia Lqa.
From stdpp Require Import base tactics option list strings gmap.

Set Default Proof Using "Type".
Local Open Scope Q_scope.

(** ** Exceptions and results *)

Inductive exn : Type :=
  | ValueError
  | IndexError
  | TypeError
  | LinAlgError
  | OSError
  | KeyError (key : string).

Inductive result (A : Type) : Type :=
  | Ok (a : A)
  | Raise (e : exn).
Arguments Ok {A} a.
Arguments Raise {A} e.

Global Instance result_ret : MRet result := λ A a, Ok a.
Global Instance result_bind : MBind result := λ A B f m,
  match m with
  | Ok a => f a
  | Raise e => Raise e
  end.

(** ** Binary64 cells *)

Inductive float : Type :=
  | Fin (q : Q)
  | PInf
  | NInf
  | NaN.

Definition Qltb (a b : Q) : bool := negb (Qle_bool b a).

(** [a < b] on cells: false as soon as one side is NaN. *)
Definition flt (a b : float) : bool :=
  match a, b with
  | NaN, _ | _, NaN => false
  | Fin x, Fin y => Qltb x y
  | NInf, Fin _ | NInf, PInf | Fin _, PInf => true
  | _, _ => false
  end.

(** [a <= b] on cells. *)
Definition fle (a b : float) : bool :=
  match a, b with
  | NaN, _ | _, NaN => false
  | Fin x, Fin y => Qle_bool x y
  | NInf, _ | _, PInf => true
  | _, _ => false
  end.

(** [a == b] on cells. *)
Definition feqb (a b : float) : bool :=
  match a, b with
  | Fin x, Fin y => Qeq_bool x y
  | PInf, PInf | NInf, NInf => true
  | _, _ => false
  end.

(** Round to the nearest integer, ties to the even one. *)
Definition Qrint (q : Q) : Z :=
  let f := Qfloor q in
  let r := q - inject_Z f in
  if Qltb r (1 # 2) then f
  else if Qltb (1 # 2) r then (f + 1)%Z
  else if Z.even f then f else (f + 1)%Z.

(** [np.rint]. *)
Definition rint (a : float) : float :=
  match a with
  | Fin q => Fin (inject_Z (Qrint q))
  | _ => a
  end.

Definition of_Z (z : Z) : float := Fin (inject_Z z).
Definition of_nat (n : nat) : float := of_Z (Z.of_nat n).

(** ** numpy arrays of dimension 0, 1 and 2 *)

Inductive ndarray : Type :=
  | Arr0 (x : float)
  | Arr1 (v : list float)
  | Arr2 (ncols : nat) (rows : list (list float)).

(** Selection by a boolean mask: the entries whose mask bit is set. *)
Fixpoint bool_index {A : Type} (mask : list bool) (xs : list A) : list A :=
  match mask, xs with
  | b :: mask', x :: xs' =>
      if b then x :: bool_index mask' xs' else bool_index mask' xs'
  | _, _ => []
  end.

(** [a[:, k]] *)
Definition column (a : ndarray) (k : nat) : result (list float) :=
  match a with
  | Arr2 n rows =>
      if (k <? n)%nat then Ok (map (λ r, nth k r NaN) rows) else Raise IndexError
  | _ => Raise IndexError
  end.

(** [a[mask, :]] *)
Definition rows_where (a : ndarray) (mask : list bool) : result ndarray :=
  match a with
  | Arr2 n rows =>
      if (length mask =? length rows)%nat
      then Ok (Arr2 n (bool_index mask rows))
      else Raise IndexError
  | _ => Raise IndexError
  end.

(** [a[mask, k]] *)
Definition column_where (a : ndarray) (mask : list bool) (k : nat)
  : result (list float) :=
  match a with
  | Arr2 n rows =>
      if (length mask =? length rows)%nat && (k <? n)%nat
      then Ok (bool_index mask (map (λ r, nth k r NaN) rows))
      else Raise IndexError
  | _ => Raise IndexError
  end.

(** [a.shape[0]] *)
Definition shape0 (a : ndarray) : result nat :=
  match a with
  | Arr0 _ => Raise IndexError
  | Arr1 v => Ok (length v)
  | Arr2 _ rows => Ok (length rows)
  end.

(** [np.genfromtxt(filename, dtype=float, comments='#')] on the tokenised
    lines.  Lines without a field are skipped; the first remaining line
    fixes the number of columns and a line of another width is an error;
    the table is squeezed, so that a single line or a single column gives a
    one-dimensional array. *)
Definition genfromtxt (file : list (list float)) : result ndarray :=
  match filter (λ l, l ≠ []) file with
  | [] => Ok (Arr1 [])
  | first :: rest =>
      let n := length first in
      if forallb (λ l, (length l =? n)%nat) rest then
        match rest, first with
        | [], [x] => Ok (Arr0 x)
        | [], _ => Ok (Arr1 first)
        | _, [_] => Ok (Arr1 (map (λ r, nth 0 r NaN) (first :: rest)))
        | _, _ => Ok (Arr2 n (first :: rest))
        end
      else Raise ValueError
  end.

(** [np.zeros(n, dtype=int)], for a size that can be allocated when it is
    not negative. *)
Definition np_zeros (n : Z) : result (list nat) :=
  if (n <? 0)%Z then Raise ValueError else Ok (replicate (Z.to_nat n) 0%nat).

(** [v[i] = x] on a one-dimensional array *)
Definition setitem {A : Type} (v : list A) (i : nat) (x : A) : result (list A) :=
  if (i <? length v)%nat then Ok (<[i := x]> v) else Raise IndexError.

(** [v[i]] on a one-dimensional array *)
Definition getitem {A : Type} (v : list A) (i : nat) : result A :=
  match v !! i with
  | Some x => Ok x
  | None => Raise IndexError
  end.

(** [for i in range(start, start + n): s = body(i, s)] *)
Fixpoint for_range {St : Type} (body : nat → St → result St) (start n : nat)
    (s : St) : result St :=
  match n with
  | O => Ok s
  | S n' => s' ← body start s; for_range body (S start) n' s'
  end.

(** ** The regression [np.polyfit(x, y, 1)] *)

Definition finite (a : float) : option Q :=
  match a with
  | Fin q => Some q
  | _ => None
  end.

Definition Qsum (l : list Q) : Q := foldr Qplus 0 l.

Section Polyfit.

(** What the LAPACK least-squares driver does with a design matrix or a
    right-hand side holding a non-finite value depends on the build (an
    error that the singular value decomposition did not converge, or
    coefficients that are not numbers).  The embedding leaves it open:
    every property below holds whatever it is. *)
Variable lstsq_nonfinite : list float → list float → result (list float).

(** The coefficients, highest power first.  With [m] points, sums
    [sx, sy, sxx, sxy] and [det = m*sxx - sx*sx]:
    - an empty [x] and vectors of different lengths are rejected;
    - [det <> 0] (two different abscissae): the design matrix has full
      rank and the least-squares line is unique;
    - [det = 0] (all abscissae equal to some [x0]): numpy scales the
      columns of the design matrix by their norms and takes the solution
      of least norm of the scaled system, which gives the slope
      [mean y / (2 x0)] and the intercept [mean y / 2]; when [x0 = 0] the
      norm of the first column is zero and the scaled matrix holds 0/0.
    The sums are those of exact arithmetic: the rounding of binary64 and
    the cut-off by which the library takes a badly conditioned matrix for
    one of rank one are left out. *)
Definition polyfit1 (x y : list float) : result (list float) :=
  if (length x =? 0)%nat then Raise TypeError
  else if negb (length x =? length y)%nat then Raise TypeError
  else
    match mapM finite x, mapM finite y with
    | Some xs, Some ys =>
        let m := inject_Z (Z.of_nat (length xs)) in
        let sx := Qsum xs in
        let sy := Qsum ys in
        let sxx := Qsum (zip_with Qmult xs xs) in
        let sxy := Qsum (zip_with Qmult xs ys) in
        let det := m * sxx - sx * sx in
        if negb (Qeq_bool det 0)
        then Ok [Fin (Qred ((m * sxy - sx * sy) / det));
                 Fin (Qred ((sxx * sy - sx * sxy) / det))]
        else if Qeq_bool sx 0 then lstsq_nonfinite x y
        else Ok [Fin (Qred (sy / (2 * sx))); Fin (Qred (sy / (2 * m)))]
    | _, _ => lstsq_nonfinite x y
    end.

(** ** [loadFreq] *)

(** The threshold [num_of_l - 0.5], for [num_of_l] in the range where
    binary64 holds it exactly. *)
Definition threshold (num_of_l : Z) : float := Fin (inject_Z num_of_l - (1 # 2)).

Definition half : float := Fin (1 # 2).

(** One turn of the loop over the degrees:
    [num_of_n[i] = len(freq[np.rint(freq[:, 0]) == i, 0])]. *)
Definition count_degree (freq : ndarray) (i : nat) (num_of_n : list nat)
  : result (list nat) :=
  c0 ← column freq 0;
  sel ← column_where freq (map (λ d, feqb (rint d) (of_nat i)) c0) 0;
  setitem num_of_n i (length sel).

Definition loadFreq (file : list (list float)) (num_of_l : Z)
  : result (ndarray * nat * list nat * float) :=
  freq ← genfromtxt file;
  c0 ← column freq 0;
  freq ← rows_where freq (map (λ d, flt d (threshold num_of_l)) c0);
  num_of_mode ← shape0 freq;
  num_of_n ← np_zeros num_of_l;
  num_of_n ← for_range (count_degree freq) 0 (Z.to_nat num_of_l) num_of_n;
  c0 ← column freq 0;
  x ← column_where freq (map (λ d, flt d half) c0) 1;
  c0' ← column freq 0;
  y ← column_where freq (map (λ d, flt d half) c0') 2;
  coefs ← polyfit1 x y;
  delta_nu ← getitem coefs 0;
  mret (freq, num_of_mode, num_of_n, delta_nu).

End Polyfit.

(** ** HDF5 containers and the world [loadFit] runs in *)

(** What [dataset[()]] gives back: a scalar, a string or an array. *)
Inductive h5value : Type :=
  | H5Float (x : float)
  | H5Int (z : Z)
  | H5Str (s : string)
  | H5Vec (v : list float)
  | H5Mat (m : list (list float)).

(** A container maps the full path of a dataset (["header/method"]) to the
    value stored there; the groups are implicit in the paths. *)
Abbreviation container := (gmap string h5value).

(** The modes of [h5py.File]: ['r'], ['r+'], ['w'], ['w-'] and ['a']. *)
Inductive fmode : Type :=
  | Mode_r
  | Mode_rplus
  | Mode_w
  | Mode_wminus
  | Mode_a.

Inductive event : Type :=
  | Opened (filename : string) (m : fmode)
  | Lookup (filename key : string)
  | Closed (filename : string).

(** The file system, the handles that are open (one entry per handle, the
    most recent first) and the log of what was done. *)
Record world : Type := World {
  files : gmap string container;
  open_handles : list string;
  trace : list event
}.

Record handle : Type := Handle { hname : string; hmode : fmode }.

(** Computations that read and change the world and can raise. *)
Definition io (A : Type) : Type := world → result A * world.

Global Instance io_ret : MRet io := λ A a w, (Ok a, w).
Global Instance io_bind : MBind io := λ A B f m w,
  match m w with
  | (Ok a, w') => f a w'
  | (Raise e, w') => (Raise e, w')
  end.
Global Instance io_fmap : FMap io := λ A B f m w,
  match m w with
  | (Ok a, w') => (Ok (f a), w')
  | (Raise e, w') => (Raise e, w')
  end.

Definition log (e : event) (w : world) : world :=
  World (files w) (open_handles w) (trace w ++ [e]).

Definition acquire (filename : string) (m : fmode) (fs : gmap string container)
    (w : world) : result handle * world :=
  (Ok (Handle filename m),
   World fs (filename :: open_handles w) (trace w ++ [Opened filename m])).

(** [h5py.File(filename, mode)]: ['r'] and ['r+'] need an existing file,
    ['w'] truncates, ['w-'] refuses an existing file, ['a'] creates the
    file when it is missing. *)
Definition h5py_File (filename : string) (m : fmode) : io handle := λ w,
  match m, files w !! filename with
  | (Mode_r | Mode_rplus | Mode_a), Some _ => acquire filename m (files w) w
  | (Mode_r | Mode_rplus), None => (Raise OSError, w)
  | Mode_w, _ | Mode_a, None => acquire filename m (<[filename := ∅]> (files w)) w
  | Mode_wminus, Some _ => (Raise OSError, w)
  | Mode_wminus, None => acquire filename m (<[filename := ∅]> (files w)) w
  end.

(** [File.close()]: the most recent handle on the file is dropped. *)
Fixpoint release (filename : string) (hs : list string) : list string :=
  match hs with
  | [] => []
  | h :: hs' => if String.eqb h filename then hs' else h :: release filename hs'
  end.

Definition close (h : handle) (w : world) : world :=
  World (files w) (release (hname h) (open_handles w))
        (trace w ++ [Closed (hname h)]).

(** [with acquire as h: body]: the handle is closed when the block is left,
    by its end or by an exception, and the exception goes on. *)
Definition with_ {A : Type} (acq : io handle) (body : handle → io A) : io A :=
  λ w,
    match acq w with
    | (Ok h, w1) => let '(r, w2) := body h w1 in (r, close h w2)
    | (Raise e, w1) => (Raise e, w1)
    end.

(** [try: body  except KeyError: handler] *)
Definition try_except_KeyError {A : Type} (body handler : io A) : io A :=
  λ w,
    match body w with
    | (Raise (KeyError _), w1) => handler w1
    | other => other
    end.

(** [data[key][()]], for a key that is a dataset or is absent. *)
Definition read (data : handle) (key : string) : io h5value := λ w,
  let w' := log (Lookup (hname data) key) w in
  match files w !! hname data ≫= (.!! key) with
  | Some v => (Ok v, w')
  | None => (Raise (KeyError key), w')
  end.

(** ** [loadFit] *)

(** The four tuples of the result, with the names of the docstring.  A field
    that can be [None] is an [option]. *)
Record header : Type := Header {
  method : h5value; regu_param : h5value; tol_grad : h5value; n_guess : h5value;
  tauhe : option h5value; dtauhe : option h5value;
  taucz : option h5value; dtaucz : option h5value
}.

Record obsData : Type := ObsData {
  freq : h5value; num_of_n : h5value; delta_nu : h5value;
  vmin : h5value; vmax : h5value;
  freqDif2 : option h5value; icov : option h5value
}.

Record fitData : Type := FitData {
  param : h5value; chi2 : h5value; reg : h5value; ier : h5value
}.

Record rtoData : Type := RtoData {
  rtype : option h5value; ratio : option h5value
}.

(** [try: x = data[key][()]  except KeyError: x = None] *)
Definition read_or_None (data : handle) (key : string) : io (option h5value) :=
  try_except_KeyError (Some <$> read data key) (mret None).

Definition loadFit (filename : string)
  : io (header * obsData * fitData * rtoData) :=
  with_ (h5py_File filename Mode_r) (λ data,
    method ← read data "header/method";
    regu_param ← read data "header/regu_param";
    tol_grad ← read data "header/tol_grad";
    n_guess ← read data "header/n_guess";
    tauhe ← read_or_None data "header/tauhe";
    dtauhe ← read_or_None data "header/dtauhe";
    taucz ← read_or_None data "header/taucz";
    dtaucz ← read_or_None data "header/dtaucz";
    freq ← read data "obs/freq";
    num_of_n ← read data "obs/num_of_n";
    delta_nu ← read data "obs/delta_nu";
    vmin ← read data "obs/vmin";
    vmax ← read data "obs/vmax";
    freqDif2 ← read_or_None data "obs/freqDif2";
    icov ← read_or_None data "obs/icov";
    param ← read data "fit/param";
    chi2 ← read data "fit/chi2";
    reg ← read data "fit/reg";
    ier ← read data "fit/ier";
    rtype ← read_or_None data "rto/rtype";
    ratio ← match rtype with
            | Some _ => Some <$> read data "rto/ratio"
            | None => mret None
            end;
    mret (Header method regu_param tol_grad n_guess tauhe dtauhe taucz dtaucz,
          ObsData freq num_of_n delta_nu vmin vmax freqDif2 icov,
          FitData param chi2 reg ier,
          RtoData rtype ratio)).

Definition required_keys : list string :=
  ["header/method"; "header/regu_param"; "header/tol_grad"; "header/n_guess";
   "obs/freq"; "obs/num_of_n"; "obs/delta_nu"; "obs/vmin"; "obs/vmax";
   "fit/param"; "fit/chi2"; "fit/reg"; "fit/ier"].


(** * Vocabulary of the properties *)

(** The columns of a mode record (l, n, v, err). *)
Definition degree (r : list float) : float := nth 0 r NaN.
Definition order (r : list float) : float := nth 1 r NaN.
Definition frequency (r : list float) : float := nth 2 r NaN.

(** The two row filters of [loadFreq]. *)
Definition retained (num_of_l : Z) (r : list float) : bool :=
  flt (degree r) (threshold num_of_l).
Definition radial (r : list float) : bool := flt (degree r) half.

(** The rows with rounded degree [i]. *)
Definition has_degree (i : nat) (r : list float) : bool :=
  feqb (rint (degree r)) (of_nat i).

Definition table_rows (a : ndarray) : list (list float) :=
  match a with
  | Arr2 _ rows => rows
  | _ => []
  end.

(** The lines of a file that hold data. *)
Definition data_lines (file : list (list float)) : list (list float) :=
  filter (λ l, l ≠ []) file.

(** The per-degree counts, as a function of the retained rows. *)
Definition degree_counts (kept : list (list float)) (n : nat) : list nat :=
  map (λ i, length (List.filter (has_degree i) kept)) (seq 0 n).

(** One of the behaviours the least-squares driver can have on non-finite
    data: it raises. *)
Definition lstsq_raises (x y : list float) : result (list float) :=
  Raise LinAlgError.

(** What one call of [loadFit] on the file [f] adds to the log when the
    file exists: the opening in read-only mode, the look-ups, the closing. *)
Definition session (f : string) (keys : list string) : list event :=
  Opened f Mode_r :: map (Lookup f) keys ++ [Closed f].

(** The result [(h, o, fd, rt)] holds what the container [c] stores: every
    required field, the optional fields when they are there, and the ratio
    when the ratio type is there. *)
Definition loaded (c : container) (h : header) (o : obsData) (fd : fitData)
    (rt : rtoData) : Prop :=
  (c !! "header/method" = Some (method h)
   ∧ c !! "header/regu_param" = Some (regu_param h)
   ∧ c !! "header/tol_grad" = Some (tol_grad h)
   ∧ c !! "header/n_guess" = Some (n_guess h))
  ∧ (tauhe h = c !! "header/tauhe"
     ∧ dtauhe h = c !! "header/dtauhe"
     ∧ taucz h = c !! "header/taucz"
     ∧ dtaucz h = c !! "header/dtaucz")
  ∧ (c !! "obs/freq" = Some (freq o)
     ∧ c !! "obs/num_of_n" = Some (num_of_n o)
     ∧ c !! "obs/delta_nu" = Some (delta_nu o)
     ∧ c !! "obs/vmin" = Some (vmin o)
     ∧ c !! "obs/vmax" = Some (vmax o))
  ∧ (freqDif2 o = c !! "obs/freqDif2" ∧ icov o = c !! "obs/icov")
  ∧ (c !! "fit/param" = Some (param fd)
     ∧ c !! "fit/chi2" = Some (chi2 fd)
     ∧ c !! "fit/reg" = Some (reg fd)
     ∧ c !! "fit/ier" = Some (ier fd))
  ∧ rtype rt = c !! "rto/rtype"
  ∧ ratio rt = match c !! "rto/rtype" with
               | Some _ => c !! "rto/ratio"
               | None => None
               end
  ∧ (is_Some (c !! "rto/rtype") → is_Some (c !! "rto/ratio")).

(** ** [loadFit] as a function of the container *)

(** The value under a key that must be there. *)
Definition require (c : container) (key : string) : result h5value :=
  match c !! key with
  | Some v => Ok v
  | None => Raise (KeyError key)
  end.

(** The four tuples read off a container by explicit look-ups: the required
    keys in the order of the source, the optional ones as they are found,
    the ratio when the ratio type is there. *)
Definition fit_bundle (c : container)
  : result (header * obsData * fitData * rtoData) :=
  method ← require c "header/method";
  regu_param ← require c "header/regu_param";
  tol_grad ← require c "header/tol_grad";
  n_guess ← require c "header/n_guess";
  freq ← require c "obs/freq";
  num_of_n ← require c "obs/num_of_n";
  delta_nu ← require c "obs/delta_nu";
  vmin ← require c "obs/vmin";
  vmax ← require c "obs/vmax";
  param ← require c "fit/param";
  chi2 ← require c "fit/chi2";
  reg ← require c "fit/reg";
  ier ← require c "fit/ier";
  ratio ← match c !! "rto/rtype" with
          | Some _ => v ← require c "rto/ratio"; mret (Some v)
          | None => mret None
          end;
  mret (Header method regu_param tol_grad n_guess
          (c !! "header/tauhe") (c !! "header/dtauhe")
          (c !! "header/taucz") (c !! "header/dtaucz"),
        ObsData freq num_of_n delta_nu vmin vmax
          (c !! "obs/freqDif2") (c !! "obs/icov"),
        FitData param chi2 reg ier,
        RtoData (c !! "rto/rtype") ratio).

(** The keys in the order [loadFit] reads them, each with whether it is
    required; [rto/ratio] comes after them. *)
Definition reading_order : list (string * bool) :=
  [ ("header/method", true); ("header/regu_param", true);
    ("header/tol_grad", true); ("header/n_guess", true);
    ("header/tauhe", false); ("header/dtauhe", false);
    ("header/taucz", false); ("header/dtaucz", false);
    ("obs/freq", true); ("obs/num_of_n", true); ("obs/delta_nu", true);
    ("obs/vmin", true); ("obs/vmax", true);
    ("obs/freqDif2", false); ("obs/icov", false);
    ("fit/param", true); ("fit/chi2", true); ("fit/reg", true);
    ("fit/ier", true); ("rto/rtype", false) ].

(** The keys looked up on a container: those of the reading order up to the
    first required key that is missing, then [rto/ratio] when none is
    missing and [rto/rtype] is there. *)
Fixpoint looked_up_from (c : container) (ks : list (string * bool))
  : list string :=
  match ks with
  | [] => match c !! "rto/rtype" with
          | Some _ => ["rto/ratio"]
          | None => []
          end
  | (k, required) :: ks' =>
      k :: (if required
            then match c !! k with
                 | Some _ => looked_up_from c ks'
                 | None => []
                 end
            else looked_up_from c ks')
  end.

Definition looked_up (c : container) : list string :=
  looked_up_from c reading_order.

(** The twenty-one paths [loadFit] knows. *)
Definition known_keys : list string := map fst reading_order ++ ["rto/ratio"].

(** A dataset path clashes with a known path when one extends the other by
    [/]: a dataset below a known path makes that path a group of the file,
    and a dataset above one stands where the path needs a group. *)
Definition clashes (k : string) : bool :=
  existsb (λ path, String.prefix (path +:+ "/") k
                   || String.prefix (k +:+ "/") path) known_keys.

(** A container is well formed, for [loadFit], when none of its datasets
    clashes with a known path: a known path is then a dataset or is absent.
    On a group [data[path][()]] raises a type error, which [except KeyError]
    does not catch. *)
Definition well_formed (c : container) : Prop :=
  ∀ k, is_Some (c !! k) → clashes k = false.

(** The sizes for which [np.zeros] is taken to return: numpy refuses a size
    from 2^63 on and any size that cannot be allocated; 2^16 counters are
    half a mebibyte. *)
Definition allocatable (n : Z) : Prop := (0 ≤ n < 2 ^ 16)%Z.

(** A container with the value [o] under the key [k] when there is one. *)
Definition put (k : string) (o : option h5value) (c : container) : container :=
  match o with
  | Some v => <[k := v]> c
  | None => c
  end.

(** The container that stores the fields of a result under their paths. *)
Definition fields_of (h : header) (o : obsData) (fd : fitData) (rt : rtoData)
  : container :=
  put "header/method" (Some (method h))
  (put "header/regu_param" (Some (regu_param h))
  (put "header/tol_grad" (Some (tol_grad h))
  (put "header/n_guess" (Some (n_guess h))
  (put "header/tauhe" (tauhe h)
  (put "header/dtauhe" (dtauhe h)
  (put "header/taucz" (taucz h)
  (put "header/dtaucz" (dtaucz h)
  (put "obs/freq" (Some (freq o))
  (put "obs/num_of_n" (Some (num_of_n o))
  (put "obs/delta_nu" (Some (delta_nu o))
  (put "obs/vmin" (Some (vmin o))
  (put "obs/vmax" (Some (vmax o))
  (put "obs/freqDif2" (freqDif2 o)
  (put "obs/icov" (icov o)
  (put "fit/param" (Some (param fd))
  (put "fit/chi2" (Some (chi2 fd))
  (put "fit/reg" (Some (reg fd))
  (put "fit/ier" (Some (ier fd))
  (put "rto/rtype" (rtype rt)
  (put "rto/ratio" (ratio rt) ∅)))))))))))))))))))).

(** ** Sample inputs *)

(** The three modes of the scenario of the specification. *)
Definition modes_txt : list (list float) :=
  [ [Fin 0; Fin 0; Fin 1000; Fin 0.1];
    [Fin 0; Fin 1; Fin 1100; Fin 0.1];
    [Fin 1; Fin 0; Fin 1050; Fin 0.1] ].

(** The same with a comment line and a mode of degree 3. *)
Definition modes_l3 : list (list float) :=
  [] :: modes_txt ++ [ [Fin 3; Fin 0; Fin 1200; Fin 0.1] ].


(** One radial mode only. *)
Definition modes_one_radial : list (list float) :=
  [ [Fin 0; Fin 1; Fin 1000; Fin 0.1];
    [Fin 1; Fin 0; Fin 1050; Fin 0.1] ].

(** No radial mode. *)
Definition modes_no_radial : list (list float) :=
  [ [Fin 1; Fin 0; Fin 1050; Fin 0.1];
    [Fin 1; Fin 1; Fin 1150; Fin 0.1] ].

(** Blank and comment lines only. *)
Definition modes_blank : list (list float) := [ []; []; [] ].

(** A second line with a field missing. *)
Definition modes_ragged : list (list float) :=
  [ [Fin 0; Fin 0; Fin 1000; Fin 0.1];
    [Fin 0; Fin 1; Fin 1100] ].

(** Degrees and orders without frequencies. *)
Definition modes_two_columns : list (list float) :=
  [ [Fin 0; Fin 0];
    [Fin 0; Fin 1] ].

(** The scenario file with its lines in another order. *)
Definition modes_txt_shuffled : list (list float) :=
  [ [Fin 1; Fin 0; Fin 1050; Fin 0.1];
    [Fin 0; Fin 1; Fin 1100; Fin 0.1];
    [Fin 0; Fin 0; Fin 1000; Fin 0.1] ].

(** The radial modes of the scenario and a row of degree -1. *)
Definition modes_negative : list (list float) :=
  [ [Fin (-1); Fin 0; Fin 900; Fin 0.1];
    [Fin 0; Fin 1; Fin 1000; Fin 0.1];
    [Fin 0; Fin 2; Fin 1100; Fin 0.1] ].

(** A container with the required fields only. *)
Definition bundle_required : container :=
  list_to_map
    [ ("header/method", H5Str "FQ"); ("header/regu_param", H5Float (Fin 7));
      ("header/tol_grad", H5Float (Fin 0.01)); ("header/n_guess", H5Int 200);
      ("obs/freq", H5Mat modes_txt); ("obs/num_of_n", H5Vec [Fin 2; Fin 1]);
      ("obs/delta_nu", H5Float (Fin 100)); ("obs/vmin", H5Float (Fin 1000));
      ("obs/vmax", H5Float (Fin 1100));
      ("fit/param", H5Vec [Fin 1; Fin 2]); ("fit/chi2", H5Float (Fin 3));
      ("fit/reg", H5Float (Fin 0)); ("fit/ier", H5Int 1) ].

(** The same with a ratio array but no ratio type. *)
Definition bundle_ratio_only : container :=
  <["rto/ratio" := H5Vec [Fin 0.05]]> bundle_required.



(** A result with two optional fields and a ratio. *)
Definition sample_header : header :=
  Header (H5Str "FQ") (H5Float (Fin 7)) (H5Float (Fin 0.01)) (H5Int 200)
    (Some (H5Float (Fin 700))) None (Some (H5Float (Fin 2200))) None.
Definition sample_obsData : obsData :=
  ObsData (H5Mat modes_txt) (H5Vec [Fin 2; Fin 1]) (H5Float (Fin 100))
    (H5Float (Fin 1000)) (H5Float (Fin 1100)) None None.
Definition sample_fitData : fitData :=
  FitData (H5Vec [Fin 1; Fin 2]) (H5Float (Fin 3)) (H5Float (Fin 0)) (H5Int 1).
Definition sample_rtoData : rtoData :=
  RtoData (Some (H5Str "r012")) (Some (H5Vec [Fin 0.05])).

(** The same without the solver indicator. *)
Definition bundle_no_ier : container := delete "fit/ier" bundle_required.

Definition world_of (c : container) : world := World {["fit.h5" := c]} [] [].

(** * Properties of the frequency-table loader *)

(** ** Auxiliary facts *)

Lemma Qltb_lt (a b : Q) : Qltb a b = true ↔ a < b.
Proof.
  unfold Qltb. rewrite negb_true_iff, <- not_true_iff_false, Qle_bool_iff.
  split; [apply Qnot_le_lt | apply Qlt_not_le].
Qed.

Lemma Qeq_bool_inject_Z (a b : Z) :
  Qeq_bool (inject_Z a) (inject_Z b) = (a =? b)%Z.
Proof.
  destruct (Z.eqb_spec a b) as [->|Hne].
  - apply Qeq_bool_iff. reflexivity.
  - apply not_true_iff_false. rewrite Qeq_bool_iff, inject_Z_injective. done.
Qed.

Lemma Qrint_inject_Z (q : Q) (z : Z) : q == inject_Z z → Qrint q = z.
Proof.
  intros Hq. unfold Qrint.
  assert (Qfloor q = z) as -> by (rewrite Hq; apply Qfloor_Z).
  assert (Qltb (q - inject_Z z) (1 # 2) = true) as ->; [|done].
  apply Qltb_lt. rewrite Hq. lra.
Qed.

Lemma has_degree_exact (i : nat) (r : list float) (z : Z) :
  feqb (degree r) (of_Z z) = true → has_degree i r = (Z.of_nat i =? z)%Z.
Proof.
  unfold has_degree, of_nat, of_Z.
  destruct (degree r) as [q| | |]; simpl; try done.
  intros Hq%Qeq_bool_iff. rewrite (Qrint_inject_Z q z Hq).
  by rewrite Qeq_bool_inject_Z, Z.eqb_sym.
Qed.



Lemma retained_exact (num_of_l : Z) (r : list float) (z : Z) :
  feqb (degree r) (of_Z z) = true → (z < num_of_l)%Z →
  retained num_of_l r = true.
Proof.
  unfold retained, threshold, of_Z.
  destruct (degree r) as [q| | |]; simpl; try done.
  intros Hq%Qeq_bool_iff Hz. apply Qltb_lt. rewrite Hq.
  assert (inject_Z z + 1 <= inject_Z num_of_l); [|lra].
  change 1 with (inject_Z 1). rewrite <- inject_Z_plus, <- Zle_Qle. lia.
Qed.

Lemma filter_all {A : Type} (p : A → bool) (l : list A) :
  (∀ x, x ∈ l → p x = true) → List.filter p l = l.
Proof.
  induction l as [|x l IH]; intros H; simpl; [done|].
  rewrite (H x) by left. f_equal. apply IH. intros y Hy. apply H. by right.
Qed.



Lemma sum_list_map_plus {A : Type} (f g : A → nat) (l : list A) :
  sum_list (map (λ i, f i + g i)%nat l)
  = (sum_list (map f l) + sum_list (map g l))%nat.
Proof. induction l as [|x l IH]; simpl; [done|]. rewrite IH. lia. Qed.

(** A degree falls in exactly one of the bins [a .. a + n - 1] when it is
    one of these numbers, and in none otherwise. *)
Lemma sum_list_bin (z : Z) (n : nat) : ∀ a : nat,
  sum_list (map (λ i, if (Z.of_nat i =? z)%Z then 1 else 0)%nat (seq a n))
  = if ((Z.of_nat a <=? z) && (z <? Z.of_nat (a + n)))%Z then 1%nat else 0%nat.
Proof.
  induction n as [|n IH]; intros a; simpl.
  - destruct (Z.leb_spec (Z.of_nat a) z), (Z.ltb_spec z (Z.of_nat (a + 0)));
      simpl; auto; lia.
  - rewrite IH.
    destruct (Z.eqb_spec (Z.of_nat a) z), (Z.leb_spec (Z.of_nat a) z),
      (Z.leb_spec (Z.of_nat (S a)) z), (Z.ltb_spec z (Z.of_nat (S a + n))),
      (Z.ltb_spec z (Z.of_nat (a + S n))); simpl; auto; lia.
Qed.

Lemma length_filter_cons {A : Type} (p : A → bool) (x : A) (l : list A) :
  length (List.filter p (x :: l))
  = ((if p x then 1 else 0) + length (List.filter p l))%nat.
Proof. simpl. by destruct (p x). Qed.

(** Rows with an exact integer degree in [0 .. n - 1] are counted once. *)
Lemma sum_degree_counts (kept : list (list float)) (n : nat) :
  (∀ r, r ∈ kept →
        ∃ z, (0 ≤ z < Z.of_nat n)%Z ∧ feqb (degree r) (of_Z z) = true) →
  sum_list (degree_counts kept n) = length kept.
Proof.
  unfold degree_counts.
  induction kept as [|r kept IH]; intros H.
  - simpl. induction (seq 0 n) as [|i l IHl]; simpl; auto.
  - destruct (H r) as (z & Hz & Hr); [left|].
    rewrite (map_ext _ _ (λ i, length_filter_cons (has_degree i) r kept)).
    rewrite sum_list_map_plus, IH by (intros r' Hr'; apply H; by right).
    rewrite (map_ext _ (λ i, if (Z.of_nat i =? z)%Z then 1%nat else 0%nat)).
    2:{ intros i. by rewrite (has_degree_exact i r z Hr). }
    rewrite sum_list_bin. change (Z.of_nat 0) with 0%Z. simpl.
    destruct (Z.leb_spec 0 z), (Z.ltb_spec z (Z.of_nat n)); simpl; lia.
Qed.

Lemma bool_index_map {A B : Type} (p : A → bool) (g : A → B) (xs : list A) :
  bool_index (map p xs) (map g xs) = map g (List.filter p xs).
Proof.
  induction xs as [|x xs IH]; simpl; [done|].
  destruct (p x); simpl; by rewrite IH.
Qed.

Lemma bool_index_filter {A : Type} (p : A → bool) (xs : list A) :
  bool_index (map p xs) xs = List.filter p xs.
Proof.
  pose proof (bool_index_map p id xs) as H.
  by rewrite !map_id in H.
Qed.

Lemma data_lines_nonempty file r : r ∈ data_lines file → r ≠ [].
Proof. unfold data_lines. rewrite list_elem_of_filter. tauto. Qed.

Lemma genfromtxt_Arr2 file n rows :
  genfromtxt file = Ok (Arr2 n rows) →
  rows = data_lines file ∧ (2 ≤ n)%nat ∧ (2 ≤ length rows)%nat
  ∧ Forall (λ r, length r = n) rows.
Proof.
  unfold genfromtxt. fold (data_lines file).
  pose proof (data_lines_nonempty file) as Hne.
  destruct (data_lines file) as [|first rest]; [done|].
  destruct (forallb _ rest) eqn:Hall; [|done].
  intros H.
  assert (Forall (λ r, length r = length first) (first :: rest)) as HF.
  { constructor; [done|]. apply Forall_forall. intros r Hr.
    rewrite forallb_forall in Hall. apply Nat.eqb_eq, Hall.
    by apply list_elem_of_In. }
  assert (first ≠ []) by (apply Hne; left).
  destruct rest as [|second rest]; destruct first as [|x [|x' first]];
    simplify_eq/=; repeat split; auto; lia.
Qed.

(** The shape of the parsed table, from the lines of the file. *)
Lemma genfromtxt_table file n :
  (2 ≤ length (data_lines file))%nat → (2 ≤ n)%nat →
  Forall (λ r, length r = n) (data_lines file) →
  genfromtxt file = Ok (Arr2 n (data_lines file)).
Proof.
  unfold genfromtxt. fold (data_lines file).
  destruct (data_lines file) as [|first [|second rest]]; simpl; try lia.
  intros _ Hn HF.
  inversion HF as [|? ? H1 HF']; subst.
  inversion HF' as [|? ? H2 HF'']; subst.
  rewrite H2, Nat.eqb_refl. simpl.
  assert (forallb (λ l, (length l =? length first)%nat) rest = true) as ->.
  { apply forallb_forall. intros r Hr. apply Nat.eqb_eq.
    rewrite Forall_forall in HF''. by apply HF'', list_elem_of_In. }
  by destruct first as [|x [|x' first]]; simpl in *; try lia.
Qed.

Section FreqProps.

Variable lstsq_nonfinite : list float → list float → result (list float).

Lemma count_degree_Arr2 n kept i acc :
  (0 < n)%nat → (i < length acc)%nat →
  count_degree (Arr2 n kept) i acc
  = Ok (<[i := length (List.filter (has_degree i) kept)]> acc).
Proof.
  intros Hn Hi. unfold count_degree, column, column_where, setitem. simpl.
  destruct (Nat.ltb_spec 0 n); [|lia]. simpl.
  rewrite !length_map, Nat.eqb_refl. simpl.
  destruct (Nat.ltb_spec i (length acc)); [|lia].
  rewrite map_map.
  rewrite (bool_index_map (has_degree i) (λ r, nth 0 r NaN)), length_map. done.
Qed.

Lemma for_range_count_degree n kept k : ∀ start acc,
  (0 < n)%nat → (start + k ≤ length acc)%nat →
  for_range (count_degree (Arr2 n kept)) start k acc
  = Ok (take start acc
        ++ map (λ i, length (List.filter (has_degree i) kept)) (seq start k)
        ++ drop (start + k) acc).
Proof.
  induction k as [|k IH]; intros start acc Hn Hlen; simpl.
  - by rewrite Nat.add_0_r, take_drop.
  - rewrite count_degree_Arr2 by lia. simpl.
    rewrite IH by (rewrite ?length_insert; lia).
    f_equal.
    assert (is_Some (acc !! start)) as [x Hx] by (apply lookup_lt_is_Some; lia).
    rewrite (take_S_r _ _ (length (List.filter (has_degree start) kept))).
    2:{ apply list_lookup_insert_eq. lia. }
    rewrite take_insert_ge by lia.
    rewrite drop_insert_lt by lia.
    rewrite <- app_assoc. simpl. by rewrite Nat.add_succ_r.
Qed.

(** [loadFreq] on a file parsed into a two-dimensional table. *)
Lemma loadFreq_table file num_of_l n rows :
  genfromtxt file = Ok (Arr2 n rows) →
  loadFreq lstsq_nonfinite file num_of_l
  = let kept := List.filter (retained num_of_l) rows in
    if (num_of_l <? 0)%Z then Raise ValueError
    else if (2 <? n)%nat then
      coefs ← polyfit1 lstsq_nonfinite
                (map order (List.filter radial kept))
                (map frequency (List.filter radial kept));
      delta_nu ← getitem coefs 0;
      Ok (Arr2 n kept, length kept,
          degree_counts kept (Z.to_nat num_of_l), delta_nu)
    else Raise IndexError.
Proof.
  intros Hg. destruct (genfromtxt_Arr2 _ _ _ Hg) as (_ & Hn & _ & _).
  unfold loadFreq. rewrite Hg. simpl.
  destruct (Nat.ltb_spec 0 n); [|lia]. simpl.
  rewrite !length_map, Nat.eqb_refl. simpl.
  rewrite map_map.
  rewrite (bool_index_filter (retained num_of_l)).
  unfold np_zeros.
  destruct (Z.ltb_spec num_of_l 0); [done|]. simpl.
  rewrite for_range_count_degree by (rewrite ?length_replicate; lia).
  simpl. rewrite drop_ge, app_nil_r by (rewrite length_replicate; lia).
  destruct (Nat.ltb_spec 0 n); [|lia]. simpl.
  rewrite !length_map, Nat.eqb_refl. simpl.
  destruct (Nat.ltb_spec 1 n); [|lia]. simpl.
  rewrite map_map, (bool_index_map radial).
  destruct (Nat.ltb_spec 2 n); [|done]. simpl.
  rewrite (bool_index_map radial). done.
Qed.

(** [loadFreq] when the parsed table has fewer than two dimensions. *)
Lemma loadFreq_not_table file num_of_l a :
  genfromtxt file = Ok a → (∀ n rows, a ≠ Arr2 n rows) →
  loadFreq lstsq_nonfinite file num_of_l = Raise IndexError.
Proof.
  intros Hg Ha. unfold loadFreq. rewrite Hg.
  destruct a; simpl; try done. by destruct (Ha ncols rows).
Qed.

(** What a successful call went through. *)
Lemma loadFreq_Ok_inv file num_of_l t m c d :
  loadFreq lstsq_nonfinite file num_of_l = Ok (t, m, c, d) →
  ∃ n coefs,
    let kept := List.filter (retained num_of_l) (data_lines file) in
    genfromtxt file = Ok (Arr2 n (data_lines file))
    ∧ (0 ≤ num_of_l)%Z ∧ (3 ≤ n)%nat
    ∧ t = Arr2 n kept ∧ m = length kept
    ∧ c = degree_counts kept (Z.to_nat num_of_l)
    ∧ polyfit1 lstsq_nonfinite (map order (List.filter radial kept))
               (map frequency (List.filter radial kept)) = Ok coefs
    ∧ coefs !! 0%nat = Some d.
Proof.
  intros H.
  destruct (genfromtxt file) as [a|e] eqn:Hg.
  2:{ unfold loadFreq in H. by rewrite Hg in H. }
  destruct a as [x|v|n rows].
  1,2: by erewrite loadFreq_not_table in H.
  destruct (genfromtxt_Arr2 _ _ _ Hg) as (-> & _ & _ & _).
  rewrite (loadFreq_table _ _ _ _ Hg) in H. simpl in H.
  destruct (Z.ltb_spec num_of_l 0); [done|].
  destruct (Nat.ltb_spec 2 n); [|done].
  destruct (polyfit1 _ _ _) as [coefs|] eqn:Hfit; [|done]. simpl in H.
  unfold getitem in H.
  destruct (coefs !! 0%nat) as [d'|] eqn:Hd; [|done]. simpl in H.
  exists n, coefs. simplify_eq. repeat split; auto with lia.
Qed.

End FreqProps.

(** * The claims on [loadFreq] *)

Section FreqClaims.

Variable lstsq_nonfinite : list float → list float → result (list float).

(** C1.  Whenever [loadFreq] returns, the table it returns is the
    two-dimensional array of exactly the data rows of the file whose degree
    is strictly below [num_of_l - 0.5], in the order of the file; no row of
    degree [>= num_of_l] is among them; and [num_of_mode] is the number of
    rows of that table. *)
Theorem loadFreq_table_filter file num_of_l t m c d :
  loadFreq lstsq_nonfinite file num_of_l = Ok (t, m, c, d) →
  (∃ n, t = Arr2 n (List.filter
                      (λ r, flt (degree r) (Fin (inject_Z num_of_l - (1 # 2))))
                      (data_lines file)))
  ∧ (∀ r, r ∈ table_rows t ↔
          r ∈ data_lines file
          ∧ flt (degree r) (Fin (inject_Z num_of_l - (1 # 2))) = true)
  ∧ (∀ r, r ∈ table_rows t → fle (of_Z num_of_l) (degree r) = false)
  ∧ m = length (table_rows t).
Proof.
  intros H.
  destruct (loadFreq_Ok_inv _ _ _ _ _ _ _ H)
    as (n & coefs & _ & _ & _ & -> & -> & _).
  simpl.
  assert (∀ r, r ∈ List.filter (retained num_of_l) (data_lines file) ↔
               r ∈ data_lines file ∧ retained num_of_l r = true) as Hin.
  { intros r. rewrite !list_elem_of_In, filter_In. done. }
  split; [by exists n|]. split; [exact Hin|]. split; [|done].
  intros r [_ Hr]%Hin. unfold retained, threshold in Hr.
  unfold of_Z. destruct (degree r) as [q| | |]; simpl in *; try done.
  apply Qltb_lt in Hr. apply not_true_iff_false.
  rewrite Qle_bool_iff. lra.
Qed.


(** C10.  When every data row of the file has an exact integer degree in
    [0 .. num_of_l - 1], the counts returned by [loadFreq] add up to the
    returned number of modes.  Without that condition they need not: a
    row of degree -1, or of the half-integer degree -3/2, is retained and
    counted as a mode, but falls in no bin. *)
Theorem loadFreq_counts_sum :
  (∀ file num_of_l t m c d,
     loadFreq lstsq_nonfinite file num_of_l = Ok (t, m, c, d) →
     (∀ r, r ∈ data_lines file →
           ∃ z, (0 ≤ z < num_of_l)%Z ∧ feqb (degree r) (of_Z z) = true) →
     sum_list c = m)
  ∧ (∃ t c d,
       loadFreq lstsq_nonfinite
         [ [Fin (-1); Fin 0; Fin 900; Fin 0.1];
           [Fin 0; Fin 1; Fin 1000; Fin 0.1];
           [Fin 0; Fin 2; Fin 1100; Fin 0.1] ] 1 = Ok (t, 3%nat, c, d)
       ∧ sum_list c = 2%nat)
  ∧ (∃ t c d,
       loadFreq lstsq_nonfinite
         [ [Fin (-1.5); Fin 0; Fin 900; Fin 0.1];
           [Fin 0; Fin 1; Fin 1000; Fin 0.1];
           [Fin 0; Fin 2; Fin 1100; Fin 0.1] ] 1 = Ok (t, 3%nat, c, d)
       ∧ sum_list c = 2%nat).
Proof.
  split; [|split].
  - intros file num_of_l t m c d H Hdeg.
    destruct (loadFreq_Ok_inv _ _ _ _ _ _ _ H)
      as (n & coefs & _ & HL & _ & -> & -> & -> & _).
    rewrite filter_all.
    2:{ intros r (z & Hz & Hr)%Hdeg. apply (retained_exact _ _ z Hr). lia. }
    apply sum_degree_counts.
    intros r (z & Hz & Hr)%Hdeg. exists z. split; [lia|done].
  - vm_compute. eauto.
  - vm_compute. eauto.
Qed.

(** C9.  A frequency file with exactly one data row is parsed into an
    array of fewer than two dimensions, and [loadFreq] raises an indexing
    error on it, whatever the row and whatever [num_of_l]; so it does on
    the one-line file [0 0 1000.0 0.1]. *)
Theorem loadFreq_single_row :
  (∀ row num_of_l,
     loadFreq lstsq_nonfinite [row] num_of_l = Raise IndexError)
  ∧ loadFreq lstsq_nonfinite [[Fin 0; Fin 0; Fin 1000; Fin 0.1]] 3
    = Raise IndexError.
Proof.
  split; [|done].
  intros row num_of_l. unfold loadFreq, genfromtxt.
  destruct row as [|x [|x' row]]; done.
Qed.

(** C3, as amended.  When no row of the retained table has degree below
    0.5, [loadFreq] raises, whatever the file and whatever [num_of_l]. *)
Theorem loadFreq_degenerate_fit file num_of_l :
  List.filter (λ r, flt (degree r) (Fin (1 # 2)))
    (List.filter (λ r, flt (degree r) (Fin (inject_Z num_of_l - (1 # 2))))
       (data_lines file)) = [] →
  ∃ e, loadFreq lstsq_nonfinite file num_of_l = Raise e.
Proof.
  intros Hrad.
  destruct (genfromtxt file) as [a|e] eqn:Hg.
  2:{ exists e. unfold loadFreq. by rewrite Hg. }
  destruct a as [x|v|n rows].
  1,2: exists IndexError; by eapply loadFreq_not_table.
  destruct (genfromtxt_Arr2 _ _ _ Hg) as (-> & _ & _ & _).
  rewrite (loadFreq_table _ _ _ _ _ Hg). cbv zeta.
  destruct (num_of_l <? 0)%Z; [eauto|].
  destruct (2 <? n)%nat; [|eauto].
  unfold retained, threshold, radial, half. rewrite Hrad. simpl. eauto.
Qed.

End FreqClaims.

(** * Properties of the fit-bundle loader *)

Lemma bind_read {B : Type} (data : handle) (key : string)
    (k : h5value → io B) fs hs tr (c : container) :
  fs !! hname data = Some c →
  (read data key ≫= k) (World fs hs tr)
  = match c !! key with
    | Some v => k v (World fs hs (tr ++ [Lookup (hname data) key]))
    | None => (Raise (KeyError key),
               World fs hs (tr ++ [Lookup (hname data) key]))
    end.
Proof.
  intros Hc. unfold mbind, io_bind, read. simpl. rewrite Hc. simpl.
  by destruct (c !! key).
Qed.

Lemma bind_read_or_None {B : Type} (data : handle) (key : string)
    (k : option h5value → io B) fs hs tr (c : container) :
  fs !! hname data = Some c →
  (read_or_None data key ≫= k) (World fs hs tr)
  = k (c !! key) (World fs hs (tr ++ [Lookup (hname data) key])).
Proof.
  intros Hc.
  unfold mbind, io_bind, read_or_None, try_except_KeyError, fmap, io_fmap, read.
  simpl. rewrite Hc. simpl. by destruct (c !! key).
Qed.

Lemma fmap_read (data : handle) (key : string) fs hs tr (c : container) :
  fs !! hname data = Some c →
  (Some <$> read data key) (World fs hs tr)
  = (match c !! key with
     | Some v => Ok (Some v)
     | None => Raise (KeyError key)
     end, World fs hs (tr ++ [Lookup (hname data) key])).
Proof.
  intros Hc. unfold fmap, io_fmap, read. simpl. rewrite Hc. simpl.
  by destruct (c !! key).
Qed.

Lemma release_head (f : string) (hs : list string) : release f (f :: hs) = hs.
Proof. simpl. by rewrite String.eqb_refl. Qed.

Lemma session_lookups_nil (f : string) :
  [Closed f] = map (Lookup f) [] ++ [Closed f].
Proof. done. Qed.

Lemma session_lookups_cons (f k : string) (ks : list string) (l : list event) :
  l = map (Lookup f) ks ++ [Closed f] →
  Lookup f k :: l = map (Lookup f) (k :: ks) ++ [Closed f].
Proof. by intros ->. Qed.

Lemma loadFit_no_file (f : string) (w : world) :
  files w !! f = None → loadFit f w = (Raise OSError, w).
Proof. intros H. unfold loadFit, with_, h5py_File. by rewrite H. Qed.

(** Closing steps of a symbolic run of [loadFit]. *)
Local Ltac close_session :=
  cbv beta iota; unfold mret, io_ret; cbv beta iota;
  unfold close; cbn [files open_handles trace hname];
  rewrite release_head, <- !app_assoc; cbn [app]; unfold session;
  do 4 f_equal;
  repeat (eapply session_lookups_cons); apply session_lookups_nil.

Local Ltac not_looked_up :=
  let H := fresh in
  intros H; exfalso; apply list_elem_of_In in H; cbn [In] in H;
  intuition discriminate.

(** One required look-up: the run stops when the key is missing. *)
Local Ltac required_step c Hc :=
  lazymatch goal with
  | |- context [mbind ?k (read ?d ?key) (World ?fs ?hs ?tr)] =>
      rewrite (bind_read d key k fs hs tr c Hc);
      let E := fresh "E" in
      destruct (c !! key) eqn:E;
      [ | eexists _, _; split; [close_session|];
          split; [not_looked_up|];
          left; eexists; split; [reflexivity|]; split; [exact E|];
          unfold required_keys; repeat constructor ]
  end.

(** One optional look-up: the run goes on with what the container has. *)
Local Ltac optional_step c Hc :=
  lazymatch goal with
  | |- context [mbind ?k (read_or_None ?d ?key) (World ?fs ?hs ?tr)] =>
      rewrite (bind_read_or_None d key k fs hs tr c Hc)
  end.

Lemma loadFit_run (f : string) (w : world) (c : container) :
  files w !! f = Some c →
  ∃ keys r,
    loadFit f w
    = (r, World (files w) (open_handles w) (trace w ++ session f keys))
    ∧ ("rto/ratio" ∈ keys → is_Some (c !! "rto/rtype"))
    ∧ ((∃ k, r = Raise (KeyError k) ∧ c !! k = None ∧ k ∈ required_keys)
       ∨ (r = Raise (KeyError "rto/ratio") ∧ c !! "rto/ratio" = None
          ∧ is_Some (c !! "rto/rtype")
          ∧ ∀ k, k ∈ required_keys → is_Some (c !! k))
       ∨ (∃ h o fd rt, r = Ok (h, o, fd, rt) ∧ loaded c h o fd rt)).
Proof.
  destruct w as [fs hs tr]. cbn [files open_handles trace]. intros Hc.
  unfold loadFit, with_, h5py_File, acquire. cbn [files open_handles trace].
  rewrite Hc.
  do 4 required_step c Hc.
  do 4 optional_step c Hc.
  do 5 required_step c Hc.
  do 2 optional_step c Hc.
  do 4 required_step c Hc.
  optional_step c Hc.
  assert (∀ k, k ∈ required_keys → is_Some (c !! k)) as Hreq.
  { intros k Hk. apply list_elem_of_In in Hk. cbn [In required_keys] in Hk.
    repeat (destruct Hk as [<-|Hk]; [eauto|]). destruct Hk. }
  unfold mbind at 1, io_bind at 1.
  destruct (c !! "rto/rtype") as [rt|] eqn:Ert.
  - rewrite (fmap_read (Handle f Mode_r) _ _ _ _ c Hc).
    destruct (c !! "rto/ratio") as [ra|] eqn:Era.
    + eexists _, _. split; [close_session|]. split; [eauto|].
      right; right. eexists _, _, _, _. split; [reflexivity|].
      unfold loaded. cbn [method regu_param tol_grad n_guess tauhe dtauhe
        taucz dtaucz freq num_of_n delta_nu vmin vmax freqDif2 icov param chi2
        reg ier rtype ratio].
      rewrite Ert. repeat split; eauto.
    + eexists _, _. split; [close_session|]. split; [eauto|].
      right; left. repeat split; eauto.
  - eexists _, _. split; [close_session|].
    split; [not_looked_up|].
    right; right. eexists _, _, _, _. split; [reflexivity|].
    unfold loaded. cbn [method regu_param tol_grad n_guess tauhe dtauhe
      taucz dtaucz freq num_of_n delta_nu vmin vmax freqDif2 icov param chi2
      reg ier rtype ratio].
    rewrite Ert. repeat split; eauto.
    by intros [? ?].
Qed.

Lemma loaded_required c h o fd rt (k : string) :
  loaded c h o fd rt → k ∈ required_keys → is_Some (c !! k).
Proof.
  unfold loaded. intros H Hk.
  apply list_elem_of_In in Hk. cbn [In required_keys] in Hk.
  intuition subst; eauto.
Qed.


(** * The claims on [loadFit] *)

(** C2.  In a run of [loadFit] on an existing file, the key [rto/ratio] is
    looked up only when the container has [rto/rtype].  When the run
    returns, a container without [rto/rtype] gives [ratio = None], whether
    or not it has a key [rto/ratio], and [ratio] is there exactly when
    [rtype] is. *)
Theorem loadFit_ratio_iff_rtype (f : string) (w : world) (c : container) :
  files w !! f = Some c →
  (∃ keys, trace (loadFit f w).2 = trace w ++ session f keys
           ∧ ("rto/ratio" ∈ keys → is_Some (c !! "rto/rtype")))
  ∧ (∀ h o fd rt,
       (loadFit f w).1 = Ok (h, o, fd, rt) →
       rtype rt = c !! "rto/rtype"
       ∧ (c !! "rto/rtype" = None → ratio rt = None)
       ∧ (is_Some (ratio rt) ↔ is_Some (rtype rt))).
Proof.
  intros Hc. destruct (loadFit_run f w c Hc) as (keys & r & -> & Hk & Hr).
  cbn [fst snd trace]. split; [by exists keys|].
  intros h o fd rt ->.
  destruct Hr as [(k & ? & _)|[(? & _)|(h' & o' & fd' & rt' & Heq & Hl)]];
    try done.
  simplify_eq. unfold loaded in Hl.
  destruct Hl as (_ & _ & _ & _ & _ & Hrt & Hra & Himp).
  rewrite Hrt, Hra. split; [done|]. split.
  - by intros ->.
  - destruct (c !! "rto/rtype"); [|by split; intros [? ?]].
    split; eauto.
Qed.



(** C8.  Every run of [loadFit] leaves the files as they were and leaves no
    handle open.  Either the file does not exist, nothing is opened and the
    opening error goes to the caller, or the log grows by one opening of the
    file in read-only mode, look-ups in that file, and the closing of the
    file as the last event, whether the run returns or raises.  When a
    required key is missing the run raises, the handle is closed all the
    same, and the error is a missing-key error when the container is well
    formed. *)
Theorem loadFit_handle_released (f : string) (w : world) :
  files (loadFit f w).2 = files w
  ∧ open_handles (loadFit f w).2 = open_handles w
  ∧ ((files w !! f = None ∧ loadFit f w = (Raise OSError, w))
     ∨ (∃ keys, trace (loadFit f w).2
                = trace w ++ Opened f Mode_r :: map (Lookup f) keys ++ [Closed f]))
  ∧ (∀ c k, files w !! f = Some c → k ∈ required_keys → c !! k = None →
       (∃ e, (loadFit f w).1 = Raise e
             ∧ (well_formed c → ∃ k', e = KeyError k'))
       ∧ open_handles (loadFit f w).2 = open_handles w
       ∧ last (trace (loadFit f w).2) = Some (Closed f)).
Proof.
  destruct (files w !! f) as [c|] eqn:Hc.
  - destruct (loadFit_run f w c Hc) as (keys & r & Hrun & _ & Hr).
    rewrite Hrun. cbn [fst snd files open_handles trace].
    split; [done|]. split; [done|]. split.
    + right. by exists keys.
    + intros c' k Hc' Hk Hnone. simplify_eq.
      destruct Hr as [(k' & -> & ? & ?)|[(_ & _ & _ & Hreq)
                     |(h & o & fd & rt & _ & Hl)]].
      * split; [exists (KeyError k'); split; [done|by exists k']|].
        split; [done|]. unfold session.
        by rewrite app_comm_cons, !app_assoc, last_snoc.
      * destruct (Hreq k Hk) as [v Hv]. congruence.
      * destruct (loaded_required _ _ _ _ _ k Hl Hk) as [v Hv]. congruence.
  - rewrite (loadFit_no_file f w Hc).
    split; [done|]. split; [done|]. split; [by left|]. done.
Qed.

(** * Instances on the sample inputs *)

(** C1 on the scenario file with a comment line and a mode of degree 3,
    for [num_of_l = 3]: the mode of degree 3 is dropped. *)
Lemma loadFreq_table_filter_witness :
  (∃ n, Arr2 4 modes_txt
        = Arr2 n (List.filter
                    (λ r, flt (degree r) (Fin (inject_Z 3 - (1 # 2))))
                    (data_lines modes_l3)))
  ∧ 3%nat = length (table_rows (Arr2 4 modes_txt)).
Proof.
  destruct (loadFreq_table_filter lstsq_raises modes_l3 3%Z
              (Arr2 4 modes_txt) 3%nat [2; 1; 0]%nat (Fin 100))
    as (H1 & _ & _ & H2); [vm_compute; reflexivity|].
  by split.
Defined.

(** Case analysis on the rows of a sample file. *)
Local Ltac sample_rows H :=
  apply list_elem_of_In in H; vm_compute in H;
  repeat (destruct H as [<-|H]); [..|destruct H].


(** C10 on the scenario file: 2 + 1 + 0 = 3 modes. *)
Lemma loadFreq_counts_sum_witness : sum_list [2; 1; 0]%nat = 3%nat.
Proof.
  apply (proj1 (loadFreq_counts_sum lstsq_raises) modes_txt 3%Z
           (Arr2 4 modes_txt) 3%nat [2; 1; 0]%nat (Fin 100)).
  - vm_compute; reflexivity.
  - intros r Hr. sample_rows Hr;
      [exists 0%Z | exists 0%Z | exists 1%Z]; (split; [lia|reflexivity]).
Defined.

(** C3 on a file without radial mode. *)
Lemma loadFreq_degenerate_fit_witness :
  ∃ e, loadFreq lstsq_raises modes_no_radial 2 = Raise e.
Proof.
  apply (loadFreq_degenerate_fit lstsq_raises modes_no_radial 2%Z).
  vm_compute. reflexivity.
Defined.

(** With one radial mode, of order 1 and frequency 1000, [loadFreq] raises
    nothing and returns the finite [delta_nu = 500], whatever the
    least-squares driver does with non-finite data. *)
Lemma loadFreq_one_radial_mode :
  length (List.filter (λ r, flt (degree r) (Fin (1 # 2)))
            (List.filter (λ r, flt (degree r) (Fin (inject_Z 2 - (1 # 2))))
               (data_lines modes_one_radial))) = 1%nat
  ∧ ∀ lstsq, loadFreq lstsq modes_one_radial 2
             = Ok (Arr2 4 modes_one_radial, 2%nat, [1; 1]%nat, Fin 500).
Proof. split; [|intros lstsq]; vm_compute; reflexivity. Qed.

(** The sample world holds the container under the name [fit.h5]. *)
Lemma world_of_lookup (c : container) : files (world_of c) !! "fit.h5" = Some c.
Proof. apply lookup_singleton_eq. Qed.

(** The sample containers are well formed. *)
Lemma well_formed_list_to_map (l : list (string * h5value)) :
  forallb (λ p, negb (clashes p.1)) l = true →
  well_formed (list_to_map l).
Proof.
  intros H k [v Hv]. apply elem_of_list_to_map_2 in Hv.
  rewrite forallb_forall in H.
  apply list_elem_of_In, H in Hv. by apply negb_true_iff in Hv.
Qed.


Lemma well_formed_delete (k : string) (c : container) :
  well_formed c → well_formed (delete k c).
Proof.
  intros Hc k' [v Hv]. apply lookup_delete_Some in Hv as [_ Hv].
  apply Hc. eauto.
Qed.

Lemma bundle_required_well_formed : well_formed bundle_required.
Proof. apply well_formed_list_to_map. vm_compute. reflexivity. Qed.

Lemma bundle_no_ier_well_formed : well_formed bundle_no_ier.
Proof. apply well_formed_delete, bundle_required_well_formed. Qed.



(** C2 on a container with a ratio array and no ratio type. *)
Lemma loadFit_ratio_iff_rtype_witness :
  is_Some (bundle_ratio_only !! "rto/ratio")
  ∧ ∃ h o fd rt,
      (loadFit "fit.h5" (world_of bundle_ratio_only)).1 = Ok (h, o, fd, rt)
      ∧ ratio rt = None.
Proof.
  split; [vm_compute; eauto|].
  assert (∃ h o fd rt,
            (loadFit "fit.h5" (world_of bundle_ratio_only)).1
            = Ok (h, o, fd, rt)) as (h & o & fd & rt & H)
    by (vm_compute; eauto).
  exists h, o, fd, rt. split; [exact H|].
  destruct (loadFit_ratio_iff_rtype "fit.h5" (world_of bundle_ratio_only)
              bundle_ratio_only) as [_ Hr]; [apply world_of_lookup|].
  destruct (Hr h o fd rt H) as (_ & Hnone & _).
  apply Hnone. vm_compute. reflexivity.
Defined.



(** C8 on a container without [fit/ier]: the call raises and the handle is
    closed. *)
Lemma loadFit_handle_released_witness :
  (∃ k', (loadFit "fit.h5" (world_of bundle_no_ier)).1 = Raise (KeyError k'))
  ∧ open_handles (loadFit "fit.h5" (world_of bundle_no_ier)).2
    = open_handles (world_of bundle_no_ier)
  ∧ last (trace (loadFit "fit.h5" (world_of bundle_no_ier)).2)
    = Some (Closed "fit.h5").
Proof.
  destruct (loadFit_handle_released "fit.h5" (world_of bundle_no_ier))
    as (_ & _ & _ & Hraise).
  destruct (Hraise bundle_no_ier "fit/ier")
    as ((e & He & Hkey) & Hopen & Hlast).
  - apply world_of_lookup.
  - unfold required_keys. repeat constructor.
  - vm_compute. reflexivity.
  - destruct (Hkey bundle_no_ier_well_formed) as [k' ->].
    split; [by exists k'|]. by split.
Defined.

(** * Further properties of [loadFreq] *)

Lemma radial_retained (num_of_l : Z) (r : list float) :
  (1 ≤ num_of_l)%Z → radial r = true → retained num_of_l r = true.
Proof.
  unfold radial, retained, half, threshold.
  destruct (degree r) as [q| | |]; simpl; try done.
  intros HL Hq%Qltb_lt. apply Qltb_lt.
  assert (inject_Z 1 <= inject_Z num_of_l) by (by rewrite <- Zle_Qle).
  change (inject_Z 1) with 1 in *. lra.
Qed.

Lemma retained_mono (l1 l2 : Z) (r : list float) :
  (l1 ≤ l2)%Z → retained l1 r = true → retained l2 r = true.
Proof.
  unfold retained, threshold.
  destruct (degree r) as [q| | |]; simpl; try done.
  intros HL Hq%Qltb_lt. apply Qltb_lt.
  assert (inject_Z l1 <= inject_Z l2) by (by rewrite <- Zle_Qle). lra.
Qed.

Lemma filter_filter_implies {A : Type} (p q : A → bool) (l : list A) :
  (∀ x, p x = true → q x = true) →
  List.filter p (List.filter q l) = List.filter p l.
Proof.
  intros H. induction l as [|x l IH]; simpl; [done|].
  destruct (q x) eqn:Hq; simpl.
  - by rewrite IH.
  - destruct (p x) eqn:Hp; [|done]. apply H in Hp. congruence.
Qed.

Lemma filter_sublist {A : Type} (p : A → bool) (l : list A) :
  List.filter p l `sublist_of` l.
Proof.
  induction l as [|x l IH]; simpl; [constructor|].
  destruct (p x); by constructor.
Qed.

Lemma filter_Forall {A : Type} (P : A → Prop) (p : A → bool) (l : list A) :
  Forall P l → Forall P (List.filter p l).
Proof.
  induction 1 as [|x l Hx Hl IH]; simpl; [constructor|].
  destruct (p x); [by constructor|done].
Qed.

Lemma filter_permutation {A : Type} (p : A → bool) (l k : list A) :
  l ≡ₚ k → List.filter p l ≡ₚ List.filter p k.
Proof.
  induction 1 as [|x l k _ IH|x y l|l k j _ IH1 _ IH2]; simpl.
  - done.
  - destruct (p x); by rewrite IH.
  - destruct (p x), (p y); try done. apply perm_swap.
  - by rewrite IH1.
Qed.

(** A row falls in at most one bin. *)
Lemma bins_le_one (r : list float) (n : nat) :
  (sum_list (map (λ i, if has_degree i r then 1 else 0) (seq 0 n)) ≤ 1)%nat.
Proof.
  unfold has_degree, of_nat, of_Z.
  destruct (degree r) as [q| | |]; simpl.
  - rewrite (map_ext _ (λ i, if (Z.of_nat i =? Qrint q)%Z then 1 else 0)%nat).
    2:{ intros i. by rewrite Qeq_bool_inject_Z, Z.eqb_sym. }
    rewrite sum_list_bin. destruct (_ && _); lia.
  - induction (seq 0 n); simpl; lia.
  - induction (seq 0 n); simpl; lia.
  - induction (seq 0 n); simpl; lia.
Qed.

Lemma sum_degree_counts_le (kept : list (list float)) (n : nat) :
  (sum_list (degree_counts kept n) ≤ length kept)%nat.
Proof.
  unfold degree_counts. induction kept as [|r kept IH].
  - simpl. induction (seq 0 n); simpl; lia.
  - rewrite (map_ext _ _ (λ i, length_filter_cons (has_degree i) r kept)).
    rewrite sum_list_map_plus. pose proof (bins_le_one r n). simpl. lia.
Qed.

Lemma polyfit1_nonempty lstsq (x y coefs : list float) :
  polyfit1 lstsq x y = Ok coefs → x ≠ [].
Proof. intros H ->. discriminate H. Qed.

Section FreqMore.

Variable lstsq_nonfinite : list float → list float → result (list float).

(** X1.  A file without data line (empty, or blank and comment lines only) makes
    [loadFreq] raise an indexing error: the parsed array is one-dimensional
    and empty. *)
Theorem loadFreq_empty_file file num_of_l :
  data_lines file = [] →
  loadFreq lstsq_nonfinite file num_of_l = Raise IndexError.
Proof.
  intros H. unfold loadFreq, genfromtxt. fold (data_lines file).
  by rewrite H.
Qed.

(** X2.  A data line with another number of fields than the first one makes
    [loadFreq] raise the value error of the parser, whatever [num_of_l]. *)
Theorem loadFreq_ragged_file file num_of_l first rest row :
  data_lines file = first :: rest → row ∈ rest →
  length row ≠ length first →
  loadFreq lstsq_nonfinite file num_of_l = Raise ValueError.
Proof.
  intros H Hrow Hlen. unfold loadFreq, genfromtxt. fold (data_lines file).
  rewrite H.
  assert (forallb (λ l, (length l =? length first)%nat) rest = false) as ->;
    [|done].
  apply not_true_iff_false. rewrite forallb_forall. intros Hall.
  apply Hlen, Nat.eqb_eq, Hall. by apply list_elem_of_In.
Qed.

(** X3.  On a table of at least two lines and two columns a negative [num_of_l]
    (from [- 2^52] on, where the threshold is exact) makes [loadFreq] raise
    the value error of [np.zeros]; the columns of the orders and
    frequencies are not reached. *)
Theorem loadFreq_negative_num_of_l file num_of_l n :
  (2 ≤ length (data_lines file))%nat →
  Forall (λ r, length r = n) (data_lines file) → (2 ≤ n)%nat →
  (- 2 ^ 52 ≤ num_of_l < 0)%Z →
  loadFreq lstsq_nonfinite file num_of_l = Raise ValueError.
Proof.
  intros Hlen Hw Hn [_ HL].
  rewrite (loadFreq_table _ _ _ n (data_lines file))
    by (by apply genfromtxt_table).
  cbv zeta. by destruct (Z.ltb_spec num_of_l 0); [|lia].
Qed.

(** X4.  A table of fewer than three columns makes [loadFreq] raise an indexing
    error: with one column the parsed array is one-dimensional, whatever
    [num_of_l]; with two, and a [num_of_l] for which the counts are
    allocated, the column of the frequencies is out of bounds. *)
Theorem loadFreq_narrow_table file num_of_l n :
  (2 ≤ length (data_lines file))%nat →
  Forall (λ r, length r = n) (data_lines file) → (n < 3)%nat →
  ((2 ≤ n)%nat → allocatable num_of_l) →
  loadFreq lstsq_nonfinite file num_of_l = Raise IndexError.
Proof.
  intros Hlen Hw Hn HL.
  destruct (decide (2 ≤ n)%nat) as [H2|H2].
  - destruct (HL H2) as [HL0 _].
    rewrite (loadFreq_table _ _ _ n (data_lines file))
      by (by apply genfromtxt_table).
    cbv zeta. destruct (Z.ltb_spec num_of_l 0); [lia|].
    by destruct (Nat.ltb_spec 2 n); [lia|].
  - pose proof (data_lines_nonempty file) as Hne.
    unfold loadFreq, genfromtxt. fold (data_lines file).
    destruct (data_lines file) as [|first [|second rest]]; simpl in Hlen;
      try lia.
    assert (first ≠ []) by (apply Hne; left).
    inversion Hw as [|? ? H1 Hw']; subst.
    inversion Hw' as [|? ? H3 Hw'']; subst.
    destruct first as [|x [|x' first]]; simpl in *; try done; try lia.
    rewrite H3. simpl.
    assert (forallb (λ l, (length l =? 1)%nat) rest = true) as ->; [|done].
    apply forallb_forall. intros r Hr. apply Nat.eqb_eq.
    rewrite Forall_forall in Hw''. by apply Hw'', list_elem_of_In.
Qed.

(** X5.  A returned result is well formed: [num_of_l] is not negative, the table
    has at least three columns and every row has that many cells, its rows
    are rows of the file in the order of the file, there is at least one of
    them and at most as many as data lines, and the file has at least two
    data lines. *)
Theorem loadFreq_result_well_formed file num_of_l t m c d :
  loadFreq lstsq_nonfinite file num_of_l = Ok (t, m, c, d) →
  (0 ≤ num_of_l)%Z
  ∧ (∃ n, (3 ≤ n)%nat ∧ t = Arr2 n (table_rows t)
          ∧ Forall (λ r, length r = n) (table_rows t))
  ∧ table_rows t `sublist_of` data_lines file
  ∧ (1 ≤ m ≤ length (data_lines file))%nat
  ∧ (2 ≤ length (data_lines file))%nat.
Proof.
  intros H.
  destruct (loadFreq_Ok_inv _ _ _ _ _ _ _ H)
    as (n & coefs & Hg & HL & Hn & -> & -> & _ & Hfit & _).
  destruct (genfromtxt_Arr2 _ _ _ Hg) as (_ & _ & Hlen & Hw).
  simpl. split; [done|]. split.
  { exists n. split; [done|]. split; [done|]. by apply filter_Forall. }
  split; [apply filter_sublist|]. split; [|done]. split.
  - apply polyfit1_nonempty in Hfit.
    destruct (List.filter (retained num_of_l) (data_lines file)); simpl;
      [done|lia].
  - apply sublist_length, filter_sublist.
Qed.

(** X6.  The counts never add up to more than the number of modes: every row of
    the returned table is counted in at most one bin. *)
Theorem loadFreq_counts_sum_le file num_of_l t m c d :
  loadFreq lstsq_nonfinite file num_of_l = Ok (t, m, c, d) →
  (sum_list c ≤ m)%nat.
Proof.
  intros H.
  destruct (loadFreq_Ok_inv _ _ _ _ _ _ _ H)
    as (n & coefs & _ & _ & _ & _ & -> & -> & _).
  apply sum_degree_counts_le.
Qed.

(** X7.  Raising [num_of_l] only adds rows: the table returned for the smaller
    value is the table returned for the larger one, filtered again by the
    smaller threshold, and it has no more modes. *)
Theorem loadFreq_monotone file l1 l2 t1 m1 c1 d1 t2 m2 c2 d2 :
  (l1 ≤ l2)%Z →
  loadFreq lstsq_nonfinite file l1 = Ok (t1, m1, c1, d1) →
  loadFreq lstsq_nonfinite file l2 = Ok (t2, m2, c2, d2) →
  table_rows t1
  = List.filter (λ r, flt (degree r) (Fin (inject_Z l1 - (1 # 2))))
      (table_rows t2)
  ∧ table_rows t1 `sublist_of` table_rows t2
  ∧ (m1 ≤ m2)%nat.
Proof.
  intros HL H1 H2.
  destruct (loadFreq_Ok_inv _ _ _ _ _ _ _ H1)
    as (n1 & k1 & _ & _ & _ & -> & -> & _).
  destruct (loadFreq_Ok_inv _ _ _ _ _ _ _ H2)
    as (n2 & k2 & _ & _ & _ & -> & -> & _).
  simpl.
  assert (List.filter (retained l1) (data_lines file)
          = List.filter (retained l1)
              (List.filter (retained l2) (data_lines file))) as Heq.
  { symmetry. apply filter_filter_implies. intros r. by apply retained_mono. }
  split; [exact Heq|]. rewrite Heq.
  split; [apply filter_sublist|apply sublist_length, filter_sublist].
Qed.

(** X8.  The large separation does not depend on [num_of_l] from 1 on: two
    calls on the same file that return give the same [delta_nu]. *)
Theorem loadFreq_delta_nu_independent file l1 l2 t1 m1 c1 d1 t2 m2 c2 d2 :
  (1 ≤ l1)%Z → (1 ≤ l2)%Z →
  loadFreq lstsq_nonfinite file l1 = Ok (t1, m1, c1, d1) →
  loadFreq lstsq_nonfinite file l2 = Ok (t2, m2, c2, d2) →
  d1 = d2.
Proof.
  intros HL1 HL2 H1 H2.
  destruct (loadFreq_Ok_inv _ _ _ _ _ _ _ H1)
    as (n1 & k1 & _ & _ & _ & _ & _ & _ & Hfit1 & Hd1).
  destruct (loadFreq_Ok_inv _ _ _ _ _ _ _ H2)
    as (n2 & k2 & _ & _ & _ & _ & _ & _ & Hfit2 & Hd2).
  rewrite (filter_filter_implies radial (retained l1)) in Hfit1
    by (intros r; by apply radial_retained).
  rewrite (filter_filter_implies radial (retained l2)) in Hfit2
    by (intros r; by apply radial_retained).
  congruence.
Qed.

(** X19.  The large separation depends on the orders and frequencies of the
    rows of degree below 0.5 only: two calls that return, on any files and
    for any [num_of_l], give the same [delta_nu] when these rows of their
    tables have the same orders and the same frequencies. *)
Theorem loadFreq_delta_nu_radial_rows file file' l l' t m c d t' m' c' d' :
  loadFreq lstsq_nonfinite file l = Ok (t, m, c, d) →
  loadFreq lstsq_nonfinite file' l' = Ok (t', m', c', d') →
  map order (List.filter (λ r, flt (degree r) (Fin (1 # 2))) (table_rows t))
  = map order (List.filter (λ r, flt (degree r) (Fin (1 # 2)))
                 (table_rows t')) →
  map frequency (List.filter (λ r, flt (degree r) (Fin (1 # 2)))
                   (table_rows t))
  = map frequency (List.filter (λ r, flt (degree r) (Fin (1 # 2)))
                     (table_rows t')) →
  d = d'.
Proof.
  intros H H' Hx Hy.
  destruct (loadFreq_Ok_inv _ _ _ _ _ _ _ H)
    as (n & k & _ & _ & _ & -> & _ & _ & Hfit & Hd).
  destruct (loadFreq_Ok_inv _ _ _ _ _ _ _ H')
    as (n' & k' & _ & _ & _ & -> & _ & _ & Hfit' & Hd').
  cbn [table_rows] in Hx, Hy. fold half in Hx, Hy.
  change (λ r, flt (degree r) half) with radial in Hx, Hy.
  rewrite Hx, Hy in Hfit. congruence.
Qed.

(** X10.  The number of modes and the counts do not depend on the order of the
    lines of the file. *)
Theorem loadFreq_permutation file file' num_of_l t m c d t' m' c' d' :
  file ≡ₚ file' →
  loadFreq lstsq_nonfinite file num_of_l = Ok (t, m, c, d) →
  loadFreq lstsq_nonfinite file' num_of_l = Ok (t', m', c', d') →
  m = m' ∧ c = c' ∧ table_rows t ≡ₚ table_rows t'.
Proof.
  intros Hp H H'.
  destruct (loadFreq_Ok_inv _ _ _ _ _ _ _ H)
    as (n & k & _ & _ & _ & -> & -> & -> & _).
  destruct (loadFreq_Ok_inv _ _ _ _ _ _ _ H')
    as (n' & k' & _ & _ & _ & -> & -> & -> & _).
  assert (List.filter (retained num_of_l) (data_lines file)
          ≡ₚ List.filter (retained num_of_l) (data_lines file')) as Hk.
  { apply filter_permutation. unfold data_lines. by rewrite Hp. }
  simpl. split; [by rewrite Hk|]. split; [|done].
  unfold degree_counts. apply map_ext. intros i.
  by rewrite (filter_permutation (has_degree i) _ _ Hk).
Qed.

End FreqMore.

(** * Further properties of [loadFit] *)

Local Ltac rewrite_lookups c :=
  repeat match goal with H : c !! _ = _ |- _ => rewrite H end.

(** The end of a symbolic run: the result and the world are those of
    [fit_bundle] and [looked_up]. *)
Local Ltac finish_run c :=
  cbv beta iota; unfold mret, io_ret; cbv beta iota;
  unfold close; cbn [files open_handles trace hname];
  rewrite release_head, <- !app_assoc; cbn [app];
  f_equal;
  [ unfold fit_bundle, require; rewrite_lookups c; reflexivity
  | do 2 f_equal;
    unfold session, looked_up, reading_order; cbn [looked_up_from];
    rewrite_lookups c; reflexivity ].

Local Ltac required_run c Hc :=
  lazymatch goal with
  | |- context [mbind ?k (read ?d ?key) (World ?fs ?hs ?tr)] =>
      rewrite (bind_read d key k fs hs tr c Hc);
      let E := fresh "E" in
      destruct (c !! key) eqn:E; [ | finish_run c ]
  end.

Local Ltac optional_run c Hc :=
  lazymatch goal with
  | |- context [mbind ?k (read_or_None ?d ?key) (World ?fs ?hs ?tr)] =>
      rewrite (bind_read_or_None d key k fs hs tr c Hc)
  end.

(** A run of [loadFit] on an existing file, in full. *)
Lemma loadFit_exec (f : string) (w : world) (c : container) :
  files w !! f = Some c →
  loadFit f w
  = (fit_bundle c,
     World (files w) (open_handles w) (trace w ++ session f (looked_up c))).
Proof.
  destruct w as [fs hs tr]. cbn [files open_handles trace]. intros Hc.
  unfold loadFit, with_, h5py_File, acquire. cbn [files open_handles trace].
  rewrite Hc.
  do 4 required_run c Hc.
  do 4 optional_run c Hc.
  do 5 required_run c Hc.
  do 2 optional_run c Hc.
  do 4 required_run c Hc.
  optional_run c Hc.
  unfold mbind at 1, io_bind at 1.
  destruct (c !! "rto/rtype") as [rt|] eqn:Ert.
  - rewrite (fmap_read (Handle f Mode_r) _ _ _ _ c Hc).
    destruct (c !! "rto/ratio") as [ra|] eqn:Era; finish_run c.
  - finish_run c.
Qed.

Lemma lookup_put_eq (k : string) (o : option h5value) (c : container) :
  c !! k = None → put k o c !! k = o.
Proof. intros H. destruct o; simpl; [apply lookup_insert_eq|done]. Qed.

Lemma lookup_put_ne (k k' : string) (o : option h5value) (c : container) :
  k ≠ k' → put k o c !! k' = c !! k'.
Proof. intros H. destruct o; simpl; [by apply lookup_insert_ne|done]. Qed.

Lemma lookup_put_Some (k k' : string) (o : option h5value) (c : container)
    (v : h5value) :
  put k o c !! k' = Some v → (k = k' ∧ o = Some v) ∨ c !! k' = Some v.
Proof.
  destruct o as [x|]; simpl; [|by right].
  destruct (decide (k = k')) as [->|Hne].
  - rewrite lookup_insert_eq. intros [= ->]. by left.
  - rewrite lookup_insert_ne by done. by right.
Qed.



(** The fields of a result, read back from the container that stores them. *)
Lemma fit_bundle_fields_of (h : header) (o : obsData) (fd : fitData)
    (rt : rtoData) :
  (is_Some (rtype rt) ↔ is_Some (ratio rt)) →
  fit_bundle (fields_of h o fd rt) = Ok (h, o, fd, rt).
Proof.
  intros Hrt. unfold fit_bundle, require, fields_of.
  repeat first
    [ rewrite lookup_put_ne by discriminate
    | rewrite lookup_put_eq
        by (repeat (rewrite lookup_put_ne by discriminate);
            apply lookup_empty) ].
  destruct h, o, fd, rt as [[ty|] [ra|]]; simpl in *; try done.
  - destruct Hrt as [Hrt _]. by destruct Hrt.
  - destruct Hrt as [_ Hrt]. by destruct Hrt.
Qed.






(** X16.  Calls do not disturb one another: after a call on any file the files
    and the open handles are as before, and a second call gives the result
    it would have given alone. *)
Theorem loadFit_twice (f g : string) (w : world) :
  (loadFit g (loadFit f w).2).1 = (loadFit g w).1
  ∧ files (loadFit g (loadFit f w).2).2 = files w
  ∧ open_handles (loadFit g (loadFit f w).2).2 = open_handles w.
Proof.
  assert (files (loadFit f w).2 = files w
          ∧ open_handles (loadFit f w).2 = open_handles w) as [Hfs Hhs].
  { destruct (files w !! f) as [c|] eqn:Hf.
    - by rewrite (loadFit_exec f w c Hf).
    - by rewrite (loadFit_no_file f w Hf). }
  destruct (files w !! g) as [c|] eqn:Hg.
  - rewrite (loadFit_exec g (loadFit f w).2 c) by (by rewrite Hfs).
    rewrite (loadFit_exec g w c Hg). by cbn [fst snd files open_handles].
  - rewrite (loadFit_no_file g (loadFit f w).2) by (by rewrite Hfs).
    rewrite (loadFit_no_file g w Hg). by cbn [fst snd].
Qed.

(** X17.  Reading is the inverse of storing: from the file that stores the fields
    of a result under their paths, with a ratio array exactly when there is
    a ratio type, [loadFit] returns that result. *)
Theorem loadFit_fields_of (f : string) (w : world) (h : header) (o : obsData)
    (fd : fitData) (rt : rtoData) :
  files w !! f = Some (fields_of h o fd rt) →
  (is_Some (rtype rt) ↔ is_Some (ratio rt)) →
  (loadFit f w).1 = Ok (h, o, fd, rt).
Proof.
  intros Hc Hrt. rewrite (loadFit_exec f w _ Hc). cbn [fst].
  by apply fit_bundle_fields_of.
Qed.

(** X18.  Every field of a returned result is stored in the container under its
    path: the container that stores the fields of the result is included
    in the one that was read. *)
Theorem loadFit_fields_stored (f : string) (w : world) (c : container)
    (h : header) (o : obsData) (fd : fitData) (rt : rtoData) :
  files w !! f = Some c →
  (loadFit f w).1 = Ok (h, o, fd, rt) →
  fields_of h o fd rt ⊆ c.
Proof.
  intros Hc Hok.
  destruct (loadFit_run f w c Hc) as (keys & r & Hrun & _ & Hr).
  rewrite Hrun in Hok. cbn [fst] in Hok. subst r.
  destruct Hr as [(k & ? & _)|[(? & _)|(h' & o' & fd' & rt' & Heq & Hl)]];
    try done.
  simplify_eq. unfold loaded in Hl.
  destruct Hl as ((? & ? & ? & ?) & (? & ? & ? & ?) & (? & ? & ? & ? & ?)
                  & (? & ?) & (? & ? & ? & ?) & ? & Hratio & _).
  apply map_subseteq_spec. intros k v Hkv. unfold fields_of in Hkv.
  repeat (apply lookup_put_Some in Hkv as [[<- Hv]|Hkv]; [congruence|]).
  apply lookup_put_Some in Hkv as [[<- Hv]|Hkv].
  - rewrite Hv in Hratio. destruct (c !! "rto/rtype"); congruence.
  - by rewrite lookup_empty in Hkv.
Qed.

(** * Instances of the further properties *)

(** A file of blank lines. *)
Lemma loadFreq_empty_file_witness :
  loadFreq lstsq_raises modes_blank 3 = Raise IndexError.
Proof. apply loadFreq_empty_file. reflexivity. Defined.

(** A file whose second line lacks a field. *)
Lemma loadFreq_ragged_file_witness :
  loadFreq lstsq_raises modes_ragged 3 = Raise ValueError.
Proof.
  apply (loadFreq_ragged_file lstsq_raises modes_ragged 3%Z
           [Fin 0; Fin 0; Fin 1000; Fin 0.1] [[Fin 0; Fin 1; Fin 1100]]
           [Fin 0; Fin 1; Fin 1100]).
  - reflexivity.
  - left.
  - simpl. lia.
Defined.

(** The scenario file with [num_of_l = -1]. *)
Lemma loadFreq_negative_num_of_l_witness :
  loadFreq lstsq_raises modes_txt (-1) = Raise ValueError.
Proof.
  apply (loadFreq_negative_num_of_l lstsq_raises modes_txt (-1)%Z 4%nat).
  - vm_compute. lia.
  - vm_compute. repeat constructor.
  - lia.
  - lia.
Defined.

(** A file of degrees and orders only. *)
Lemma loadFreq_narrow_table_witness :
  loadFreq lstsq_raises modes_two_columns 3 = Raise IndexError.
Proof.
  apply (loadFreq_narrow_table lstsq_raises modes_two_columns 3%Z 2%nat).
  - vm_compute. lia.
  - vm_compute. repeat constructor.
  - lia.
  - intros _. unfold allocatable. lia.
Defined.

(** The scenario file with a comment line and a mode of degree 3. *)
Lemma loadFreq_result_well_formed_witness :
  table_rows (Arr2 4 modes_txt) `sublist_of` data_lines modes_l3
  ∧ (1 ≤ 3 ≤ length (data_lines modes_l3))%nat.
Proof.
  destruct (loadFreq_result_well_formed lstsq_raises modes_l3 3%Z
              (Arr2 4 modes_txt) 3%nat [2; 1; 0]%nat (Fin 100))
    as (_ & _ & H1 & H2 & _); [vm_compute; reflexivity|].
  by split.
Defined.

(** With a row of degree -1 the counts add up to less than the number of
    modes. *)
Lemma loadFreq_counts_sum_le_witness : (sum_list [2]%nat ≤ 3)%nat.
Proof.
  apply (loadFreq_counts_sum_le lstsq_raises modes_negative 1%Z
           (Arr2 4 modes_negative) 3%nat [2]%nat (Fin 100)).
  vm_compute. reflexivity.
Defined.

(** The scenario file for [num_of_l = 1] and [num_of_l = 3]. *)
Lemma loadFreq_monotone_witness :
  table_rows (Arr2 4 (take 2 modes_txt))
  `sublist_of` table_rows (Arr2 4 modes_txt)
  ∧ (2 ≤ 3)%nat.
Proof.
  destruct (loadFreq_monotone lstsq_raises modes_txt 1%Z 3%Z
              (Arr2 4 (take 2 modes_txt)) 2%nat [2]%nat (Fin 100)
              (Arr2 4 modes_txt) 3%nat [2; 1; 0]%nat (Fin 100))
    as (_ & H1 & H2).
  - lia.
  - vm_compute. reflexivity.
  - vm_compute. reflexivity.
  - by split.
Defined.

(** The scenario file for [num_of_l = 1] and [num_of_l = 3]. *)
Lemma loadFreq_delta_nu_independent_witness :
  ∃ t1 m1 c1 d1 t2 m2 c2 d2,
    loadFreq lstsq_raises modes_txt 1 = Ok (t1, m1, c1, d1)
    ∧ loadFreq lstsq_raises modes_txt 3 = Ok (t2, m2, c2, d2)
    ∧ m1 ≠ m2 ∧ d1 = d2.
Proof.
  exists (Arr2 4 (take 2 modes_txt)), 2%nat, [2]%nat, (Fin 100),
    (Arr2 4 modes_txt), 3%nat, [2; 1; 0]%nat, (Fin 100).
  assert (loadFreq lstsq_raises modes_txt 1
          = Ok (Arr2 4 (take 2 modes_txt), 2%nat, [2]%nat, Fin 100)) as H1
    by (vm_compute; reflexivity).
  assert (loadFreq lstsq_raises modes_txt 3
          = Ok (Arr2 4 modes_txt, 3%nat, [2; 1; 0]%nat, Fin 100)) as H2
    by (vm_compute; reflexivity).
  split; [exact H1|]. split; [exact H2|]. split; [lia|].
  apply (loadFreq_delta_nu_independent lstsq_raises modes_txt 1%Z 3%Z
           _ _ _ _ _ _ _ _ ltac:(lia) ltac:(lia) H1 H2).
Defined.

(** The scenario file for [num_of_l = 1], and the same with a comment line
    and a mode of degree 3 for [num_of_l = 3]: the radial modes are the
    same. *)
Lemma loadFreq_delta_nu_radial_rows_witness :
  ∃ t m c d t' m' c' d',
    loadFreq lstsq_raises modes_txt 1 = Ok (t, m, c, d)
    ∧ loadFreq lstsq_raises modes_l3 3 = Ok (t', m', c', d')
    ∧ t ≠ t' ∧ d = d'.
Proof.
  exists (Arr2 4 (take 2 modes_txt)), 2%nat, [2]%nat, (Fin 100),
    (Arr2 4 modes_txt), 3%nat, [2; 1; 0]%nat, (Fin 100).
  assert (loadFreq lstsq_raises modes_txt 1
          = Ok (Arr2 4 (take 2 modes_txt), 2%nat, [2]%nat, Fin 100)) as H1
    by (vm_compute; reflexivity).
  assert (loadFreq lstsq_raises modes_l3 3
          = Ok (Arr2 4 modes_txt, 3%nat, [2; 1; 0]%nat, Fin 100)) as H2
    by (vm_compute; reflexivity).
  split; [exact H1|]. split; [exact H2|]. split; [discriminate|].
  apply (loadFreq_delta_nu_radial_rows lstsq_raises modes_txt modes_l3
           1%Z 3%Z _ _ _ _ _ _ _ _ H1 H2); vm_compute; reflexivity.
Defined.

(** The scenario file and the same lines in reverse order. *)
Lemma loadFreq_permutation_witness :
  3%nat = 3%nat ∧ [2; 1; 0]%nat = [2; 1; 0]%nat
  ∧ table_rows (Arr2 4 modes_txt) ≡ₚ table_rows (Arr2 4 modes_txt_shuffled).
Proof.
  apply (loadFreq_permutation lstsq_raises modes_txt modes_txt_shuffled 3%Z
           _ _ _ (Fin 100) _ _ _ (Fin 100)).
  - apply (Permutation_rev modes_txt).
  - vm_compute. reflexivity.
  - vm_compute. reflexivity.
Defined.






Lemma loadFit_fields_of_witness :
  (loadFit "fit.h5"
     (world_of (fields_of sample_header sample_obsData sample_fitData
                  sample_rtoData))).1
  = Ok (sample_header, sample_obsData, sample_fitData, sample_rtoData).
Proof.
  apply loadFit_fields_of.
  - apply world_of_lookup.
  - split; intros _; simpl; eauto.
Defined.

(** With a ratio array and no ratio type the stored fields are part of the
    container, which holds the ratio besides. *)
Lemma loadFit_fields_stored_witness :
  ∃ h o fd rt,
    (loadFit "fit.h5" (world_of bundle_ratio_only)).1 = Ok (h, o, fd, rt)
    ∧ fields_of h o fd rt ⊆ bundle_ratio_only.
Proof.
  assert (∃ h o fd rt,
            (loadFit "fit.h5" (world_of bundle_ratio_only)).1
            = Ok (h, o, fd, rt)) as (h & o & fd & rt & H)
    by (vm_compute; eauto).
  exists h, o, fd, rt. split; [exact H|].
  apply (loadFit_fields_stored "fit.h5" (world_of bundle_ratio_only)
           bundle_ratio_only h o fd rt); [apply world_of_lookup|exact H].
Defined.
